(** * tenant_schemas.middleware: tenant resolution and schema switching

    A shallow embedding of [tenant_schemas/middleware.py].  The middleware
    classes become modules of the same names; a method that reads or
    mutates the request object, the database connection or the content-type
    cache becomes a computation in a state-and-exception monad over
    [World]. *)

From Stdlib Require Import List String Ascii Bool DecimalString.
Import ListNotations.
Open Scope string_scope.

(** ** Python string operations used by the middleware *)

(** [c.lower()] on one ASCII character: [A]..[Z] are mapped to [a]..[z],
    everything else is kept.  Hosts accepted by Django are ASCII. *)
Definition lower_ascii (c : ascii) : ascii :=
  let n := nat_of_ascii c in
  if (Nat.leb 65 n && Nat.leb n 90)%bool then ascii_of_nat (n + 32) else c.

(** [s.lower()] *)
Fixpoint lower (s : string) : string :=
  match s with
  | EmptyString => EmptyString
  | String c s' => String (lower_ascii c) (lower s')
  end.

(** [s.split(sep)] for a one-character separator: the list of the maximal
    pieces between separators; never empty. *)
Fixpoint split (sep : ascii) (s : string) : list string :=
  match s with
  | EmptyString => [EmptyString]
  | String c s' =>
      if Ascii.eqb c sep then EmptyString :: split sep s'
      else match split sep s' with
           | [] => [String c EmptyString]
           | p :: ps => String c p :: ps
           end
  end.

(** [s.startswith(p)] *)
Definition startswith (s p : string) : bool := String.prefix p s.

(** [s[n:]] *)
Fixpoint drop (n : nat) (s : string) : string :=
  match n, s with
  | O, _ => s
  | S _, EmptyString => EmptyString
  | S n', String _ s' => drop n' s'
  end.

(** Modelled from the spec: [remove_www] of [tenant_schemas.utils], which is
    not part of the sources at hand.  The spec has it "strip a leading
    "www." prefix": a host that starts with the four characters [www.]
    loses them, any other host is returned as it is. *)
Definition remove_www (hostname : string) : string :=
  if startswith hostname "www." then drop 4 hostname else hostname.

(** ** Data model *)

(** A row of the tenant model. *)
Record Tenant := mkTenant {
  schema_name : string;
  domain_url : string
}.

(** The request object.  [host] is the host the client asked for, port
    included.  [host_error] is Django's verdict on it, which depends on its
    syntax and on [ALLOWED_HOSTS]: [None] when [request.get_host()] returns
    [host], [Some msg] when it raises [DisallowedHost(msg)].  [tenant] and
    [urlconf] are attributes that are absent ([None]) until somebody assigns
    them. *)
Record Request := mkRequest {
  host : string;
  host_error : option string;
  tenant : option Tenant;
  urlconf : option string
}.

(** [django.conf.settings], as far as the middleware reads it.
    [PUBLIC_SCHEMA_URLCONF = None] stands for a settings object without that
    attribute, the case [hasattr] tests for. *)
Record Settings := mkSettings {
  PUBLIC_SCHEMA_NAME : string;
  PUBLIC_SCHEMA_URLCONF : option string
}.

(** Modelled from the spec: [get_public_schema_name] of
    [tenant_schemas.utils], the configured name of the public schema. *)
Definition get_public_schema_name (settings : Settings) : string :=
  PUBLIC_SCHEMA_NAME settings.

(** The field a tenant query filters on. *)
Inductive Lookup :=
| by_domain_url (hostname : string)
| by_schema_name (name : string).

(** A query the connection has executed, with the schema it was executed
    under. *)
Record Query := mkQuery {
  query_schema : string;
  query_lookup : Lookup
}.

(** Everything a request handler can observe or change: the request object
    (shared by reference between the gate and the resolver), the schema the
    connection points at, the rows of the tenant table, the number of times
    the content-type cache was cleared and the queries executed so far, most
    recent first. *)
Record World := mkWorld {
  request : Request;
  active_schema : string;
  tenants : list Tenant;
  cache_clears : nat;
  queries : list Query
}.

(** ** Exceptions *)

Inductive ExceptionClass :=
| Exception
| AttributeError
| NotImplementedError
| Http404
| DisallowedHost
| DoesNotExist
| MultipleObjectsReturned.

Definition ExceptionClass_eqb (a b : ExceptionClass) : bool :=
  match a, b with
  | Exception, Exception
  | AttributeError, AttributeError
  | NotImplementedError, NotImplementedError
  | Http404, Http404
  | DisallowedHost, DisallowedHost
  | DoesNotExist, DoesNotExist
  | MultipleObjectsReturned, MultipleObjectsReturned => true
  | _, _ => false
  end.

(** [issubclass(c, d)]: every class derives from [Exception]; the others
    are unrelated to each other. *)
Definition issubclass (c d : ExceptionClass) : bool :=
  match d with
  | Exception => true
  | _ => ExceptionClass_eqb c d
  end.

(** An exception object: its class and its message. *)
Record exception := mkException {
  exc_class : ExceptionClass;
  exc_message : string
}.

Definition isinstance (e : exception) (c : ExceptionClass) : bool :=
  issubclass (exc_class e) c.

(** ** The monad: a computation runs in a world, returns or raises, and
    leaves a world behind (a raise does not undo earlier effects). *)

Inductive result (A : Type) :=
| Return (a : A)
| Raise (e : exception).
Arguments Return {A} a.
Arguments Raise {A} e.

Definition M (A : Type) : Type := World -> result A * World.

Definition ret {A} (a : A) : M A := fun w => (Return a, w).

Definition raise {A} (e : exception) : M A := fun w => (Raise e, w).

Definition bind {A B} (m : M A) (k : A -> M B) : M B :=
  fun w =>
    match m w with
    | (Return a, w') => k a w'
    | (Raise e, w') => (Raise e, w')
    end.

(** [try: m  except c as e: h e]; an exception of another class passes. *)
Definition try_except {A} (m : M A) (c : ExceptionClass)
    (h : exception -> M A) : M A :=
  fun w =>
    match m w with
    | (Return a, w') => (Return a, w')
    | (Raise e, w') =>
        if isinstance e c then h e w' else (Raise e, w')
    end.

Declare Scope py_scope.
Delimit Scope py_scope with py.
Notation "x <- m ;; k" := (bind m (fun x => k))
  (at level 100, m at next level, right associativity) : py_scope.
Notation "m ;; k" := (bind m (fun _ => k))
  (at level 100, right associativity) : py_scope.
Open Scope py_scope.

(** ** The collaborators of the middleware *)

Definition with_request (r : Request) (w : World) : World :=
  mkWorld r (active_schema w) (tenants w) (cache_clears w) (queries w).

Definition with_active_schema (s : string) (w : World) : World :=
  mkWorld (request w) s (tenants w) (cache_clears w) (queries w).

(** Modelled from the spec: [connection.set_schema_to_public] of the
    tenant-aware database backend, the spec's [SetActiveSchema(public)]. *)
Definition set_schema_to_public (settings : Settings) : M unit :=
  fun w => (Return tt, with_active_schema (get_public_schema_name settings) w).

(** Modelled from the spec: [connection.set_tenant] of the tenant-aware
    database backend, the spec's [SetActiveSchema(name)] at the tenant's
    schema. *)
Definition set_tenant (t : Tenant) : M unit :=
  fun w => (Return tt, with_active_schema (schema_name t) w).

(** [ContentType.objects.clear_cache()] *)
Definition clear_cache : M unit :=
  fun w =>
    (Return tt,
     mkWorld (request w) (active_schema w) (tenants w)
             (S (cache_clears w)) (queries w)).

(** [request.get_host()]: the host, or [DisallowedHost] for a host Django
    does not accept. *)
Definition get_host : M string :=
  fun w =>
    match host_error (request w) with
    | None => (Return (host (request w)), w)
    | Some msg => (Raise (mkException DisallowedHost msg), w)
    end.

(** [request.tenant = t] *)
Definition assign_tenant (t : Tenant) : M unit :=
  fun w =>
    (Return tt,
     with_request (mkRequest (host (request w)) (host_error (request w))
                             (Some t) (urlconf (request w))) w).

(** [request.urlconf = u] *)
Definition assign_urlconf (u : string) : M unit :=
  fun w =>
    (Return tt,
     with_request (mkRequest (host (request w)) (host_error (request w))
                             (tenant (request w)) (Some u)) w).

(** Reading [request.tenant]; an absent attribute is an
    [AttributeError]. *)
Definition read_tenant : M Tenant :=
  fun w =>
    match tenant (request w) with
    | Some t => (Return t, w)
    | None =>
        (Raise (mkException AttributeError
                  "'Request' object has no attribute 'tenant'"), w)
    end.

Definition matches (l : Lookup) (t : Tenant) : bool :=
  match l with
  | by_domain_url hostname => String.eqb (domain_url t) hostname
  | by_schema_name name => String.eqb (schema_name t) name
  end.

(** The world after the connection has executed a query for [l]. *)
Definition executed (l : Lookup) (w : World) : World :=
  mkWorld (request w) (active_schema w) (tenants w) (cache_clears w)
          (mkQuery (active_schema w) l :: queries w).

(** The rows a query for [l] selects. *)
Definition rows (l : Lookup) (w : World) : list Tenant :=
  filter (matches l) (tenants w).

(** What [objects.get] raises when [n] rows match, [n] being two or more;
    the text is Django's for a tenant model class named [Tenant] (releases
    that stop counting at 21 rows word it differently from there on). *)
Definition several_rows (n : nat) : exception :=
  mkException MultipleObjectsReturned
    ("get() returned more than one Tenant -- it returned "
     ++ NilZero.string_of_uint (Nat.to_uint n) ++ "!").

(** [TenantModel.objects.get(field=value)]: the query is executed under
    the schema the connection points at; one matching row is returned, none
    is [DoesNotExist], several are [MultipleObjectsReturned]. *)
Definition objects_get (l : Lookup) : M Tenant :=
  fun w =>
    let w' := executed l w in
    match rows l w with
    | [] =>
        (Raise (mkException DoesNotExist
                  "Tenant matching query does not exist."), w')
    | [t] => (Return t, w')
    | _ :: _ :: _ => (Raise (several_rows (List.length (rows l w))), w')
    end.

(** [hasattr(settings, 'PUBLIC_SCHEMA_URLCONF')] *)
Definition hasattr_PUBLIC_SCHEMA_URLCONF (settings : Settings) : bool :=
  match PUBLIC_SCHEMA_URLCONF settings with
  | Some _ => true
  | None => false
  end.

(** [not v] for a class attribute that is [None] or a string: [None] and
    the empty string are the falsy values. *)
Definition not_ (v : option string) : bool :=
  match v with
  | None => true
  | Some EmptyString => true
  | Some (String _ _) => false
  end.

(** The one-character string holding a double quote. *)
Definition dquote : string := String (ascii_of_nat 34) EmptyString.

(** ** The middleware classes *)

Module BaseTenantMiddleware.

Definition get_tenant : M (option Tenant) :=
  raise (mkException NotImplementedError EmptyString).

(** [self_get_tenant] is [self.get_tenant], whatever the class of [self]
    binds it to; a resolver that returns [None] is [Return None]. *)
Definition process_request (settings : Settings)
    (self_get_tenant : M (option Tenant)) : M unit :=
  set_schema_to_public settings ;;
  tenant <- self_get_tenant ;;
  match tenant with
  | None =>
      raise (mkException Exception "Trying to set current tenant to None!")
  | Some tenant =>
      assign_tenant tenant ;;
      request_tenant <- read_tenant ;;
      set_tenant request_tenant ;;
      clear_cache ;;
      if hasattr_PUBLIC_SCHEMA_URLCONF settings
      then
        request_tenant <- read_tenant ;;
        if String.eqb (schema_name request_tenant)
                      (get_public_schema_name settings)
        then
          match PUBLIC_SCHEMA_URLCONF settings with
          | Some u => assign_urlconf u
          | None => raise (mkException AttributeError "PUBLIC_SCHEMA_URLCONF")
          end
        else ret tt
      else ret tt
  end.

End BaseTenantMiddleware.

Module TenantMiddleware.

Definition TENANT_NOT_FOUND_EXCEPTION : ExceptionClass := Http404.

Definition hostname_from_request : M string :=
  h <- get_host ;;
  ret (lower (remove_www (hd EmptyString (split ":" h)))).

(** [cls_TENANT_NOT_FOUND_EXCEPTION] is [self.TENANT_NOT_FOUND_EXCEPTION],
    which a subclass may rebind. *)
Definition get_tenant (cls_TENANT_NOT_FOUND_EXCEPTION : ExceptionClass)
    : M (option Tenant) :=
  hostname <- hostname_from_request ;;
  try_except
    (t <- objects_get (by_domain_url hostname) ;; ret (Some t))
    DoesNotExist
    (fun _ =>
       raise (mkException cls_TENANT_NOT_FOUND_EXCEPTION
                ("No tenant for hostname " ++ dquote ++ hostname ++ dquote))).

End TenantMiddleware.

Module SuspiciousTenantMiddleware.

Definition TENANT_NOT_FOUND_EXCEPTION : ExceptionClass := DisallowedHost.

(** Inherited from [TenantMiddleware]. *)
Definition get_tenant (cls_TENANT_NOT_FOUND_EXCEPTION : ExceptionClass)
    : M (option Tenant) :=
  TenantMiddleware.get_tenant cls_TENANT_NOT_FOUND_EXCEPTION.

End SuspiciousTenantMiddleware.

Module DefaultTenantMiddleware.

(** Inherited from [SuspiciousTenantMiddleware]. *)
Definition TENANT_NOT_FOUND_EXCEPTION : ExceptionClass :=
  SuspiciousTenantMiddleware.TENANT_NOT_FOUND_EXCEPTION.

Definition DEFAULT_SCHEMA_NAME : option string := None.

(** [cls_DEFAULT_SCHEMA_NAME] is [self.DEFAULT_SCHEMA_NAME], which the
    docstring invites a subclass to rebind. *)
Definition get_tenant (settings : Settings)
    (cls_TENANT_NOT_FOUND_EXCEPTION : ExceptionClass)
    (cls_DEFAULT_SCHEMA_NAME : option string) : M (option Tenant) :=
  try_except
    (SuspiciousTenantMiddleware.get_tenant cls_TENANT_NOT_FOUND_EXCEPTION)
    cls_TENANT_NOT_FOUND_EXCEPTION
    (fun e =>
       let schema_name := cls_DEFAULT_SCHEMA_NAME in
       let schema_name :=
         if not_ schema_name then Some (get_public_schema_name settings)
         else schema_name in
       try_except
         (t <- objects_get
                 (by_schema_name
                    (match schema_name with
                     | Some n => n
                     | None => EmptyString
                     end)) ;;
          ret (Some t))
         DoesNotExist
         (fun _ => raise e)).

End DefaultTenantMiddleware.

(** The three resolvers as the classes of the source configure them. *)
Definition hostname_resolver : M (option Tenant) :=
  TenantMiddleware.get_tenant TenantMiddleware.TENANT_NOT_FOUND_EXCEPTION.

Definition permissive_resolver : M (option Tenant) :=
  SuspiciousTenantMiddleware.get_tenant
    SuspiciousTenantMiddleware.TENANT_NOT_FOUND_EXCEPTION.

Definition default_resolver (settings : Settings)
    (cls_DEFAULT_SCHEMA_NAME : option string) : M (option Tenant) :=
  DefaultTenantMiddleware.get_tenant settings
    DefaultTenantMiddleware.TENANT_NOT_FOUND_EXCEPTION
    cls_DEFAULT_SCHEMA_NAME.

(** ** Properties of resolvers used in the statements *)

(** The name the request's host is looked up under. *)
Definition hostname_of (w : World) : string :=
  lower (remove_www (hd EmptyString (split ":" (host (request w))))).

(** The world in which the gate hands over to the resolver. *)
Definition at_public (settings : Settings) (w : World) : World :=
  with_active_schema (get_public_schema_name settings) w.

(** A computation that does nothing but look tenants up: it leaves the
    request, the connection, the tenant table and the cache alone, and each
    query it adds runs under the schema it was entered with. *)
Definition lookup_only {A} (m : M A) : Prop :=
  forall w,
    request (snd (m w)) = request w
    /\ active_schema (snd (m w)) = active_schema w
    /\ tenants (snd (m w)) = tenants w
    /\ cache_clears (snd (m w)) = cache_clears w
    /\ exists qs,
         queries (snd (m w)) = (qs ++ queries w)%list
         /\ Forall (fun q => query_schema q = active_schema w) qs.

(** [c] occurs in [s]. *)
Fixpoint mem (c : ascii) (s : string) : bool :=
  match s with
  | EmptyString => false
  | String c' s' => Ascii.eqb c' c || mem c s'
  end.

(** The message of the exception a hostname resolver raises for [w]. *)
Definition no_tenant_message (w : World) : string :=
  "No tenant for hostname " ++ dquote ++ hostname_of w ++ dquote.

(** The schema the fallback lookup is specified to use: the configured
    name, and the public schema when none (or an empty one) is
    configured. *)
Definition fallback_name (settings : Settings) (d : option string) : string :=
  match d with
  | Some (String c n) => String c n
  | Some EmptyString | None => get_public_schema_name settings
  end.

(** A resolver whose outcome is decided by the request's host, Django's
    verdict on it and the tenant table alone. *)
Definition reads_host_and_table (g : M (option Tenant)) : Prop :=
  forall w v,
    host (request w) = host (request v) ->
    host_error (request w) = host_error (request v) ->
    tenants w = tenants v ->
    fst (g w) = fst (g v).

(** A resolver that, when it returns, returns a row of the tenant table. *)
Definition returns_rows (g : M (option Tenant)) : Prop :=
  forall w o w',
    g w = (Return o, w') -> exists t, o = Some t /\ In t (tenants w).

(** What the [except] clause of [DefaultTenantMiddleware.get_tenant] does
    with the exception [e] it caught, entered in world [w]: a query by the
    fallback schema name, whose only row is returned and whose
    [DoesNotExist] is turned back into [e]. *)
Definition fallback_lookup (settings : Settings) (d : option string)
    (e : exception) (w : World) : result (option Tenant) * World :=
  (match rows (by_schema_name (fallback_name settings d)) w with
   | [] => Raise e
   | [t] => Return (Some t)
   | _ :: _ :: _ =>
       Raise (several_rows
                (List.length
                   (rows (by_schema_name (fallback_name settings d)) w)))
   end,
   executed (by_schema_name (fallback_name settings d)) w).

(** The host lookup is bound to find nothing: Django rejects the host, or
    no row of the table has the request's hostname as [domain_url]. *)
Definition unknown_host (w : World) : Prop :=
  host_error (request w) = None ->
  forall t, In t (tenants w) -> domain_url t <> hostname_of w.

(** The message of Django's [DisallowedHost] for a well-formed host [h]
    that is not in [ALLOWED_HOSTS]. *)
Definition invalid_host (h : string) : string :=
  "Invalid HTTP_HOST header: '" ++ h ++ "'. You may need to add '" ++ h
  ++ "' to ALLOWED_HOSTS.".

(** ** A small installation to run the middleware on *)

Definition example_settings : Settings :=
  mkSettings "public" (Some "urls_public").

Definition example_tenants : list Tenant :=
  [mkTenant "public" "example.com";
   mkTenant "tenant1" "tenant1.example.com"].

(** A request for host [h] arriving on a connection that the previous
    request left at schema [tenant9]. *)
Definition example_world (h : string) : World :=
  mkWorld (mkRequest h None None None) "tenant9" example_tenants 0 [].

(** The same for a host [h] that Django rejects. *)
Definition rejected_world (h : string) : World :=
  mkWorld (mkRequest h (Some (invalid_host h)) None None) "tenant9"
    example_tenants 0 [].

(** A tenant table in which two rows claim host [shared.example.com] and
    two rows claim schema [public]. *)
Definition clashing_tenants : list Tenant :=
  [mkTenant "public" "shared.example.com";
   mkTenant "public" "shared.example.com"].

Definition clashing_world (h : string) : World :=
  mkWorld (mkRequest h None None None) "tenant9" clashing_tenants 0 [].

(** ** The monad on its primitives *)

Lemma bind_Return {A B} (m : M A) (k : A -> M B) w a w' :
  m w = (Return a, w') -> bind m k w = k a w'.
Proof. intros H. unfold bind. rewrite H. reflexivity. Qed.

Lemma bind_Raise {A B} (m : M A) (k : A -> M B) w e w' :
  m w = (Raise e, w') -> bind m k w = (Raise e, w').
Proof. intros H. unfold bind. rewrite H. reflexivity. Qed.

Lemma lookup_only_ret {A} (a : A) : lookup_only (ret a).
Proof.
  intros w. cbn. repeat split. exists []. split; [reflexivity | constructor].
Qed.

Lemma lookup_only_raise {A} e : lookup_only (@raise A e).
Proof.
  intros w. cbn. repeat split. exists []. split; [reflexivity | constructor].
Qed.

Lemma lookup_only_get_host : lookup_only get_host.
Proof.
  intros w. unfold get_host.
  destruct (host_error (request w)); cbn; repeat split;
    exists []; (split; [reflexivity | constructor]).
Qed.

Lemma lookup_only_objects_get l : lookup_only (objects_get l).
Proof.
  intros w. unfold objects_get.
  destruct (rows l w) as [|t [|t' ts]]; cbn;
    repeat split;
    exists [mkQuery (active_schema w) l];
    (split; [reflexivity | repeat constructor]).
Qed.

(** Two lookups in a row are a lookup: the second starts where the first
    stopped, under the same schema. *)
Lemma lookup_only_step {A} (m : M A) (w : World) (n : World -> World) :
  lookup_only m ->
  (request (n (snd (m w))) = request (snd (m w))
   /\ active_schema (n (snd (m w))) = active_schema (snd (m w))
   /\ tenants (n (snd (m w))) = tenants (snd (m w))
   /\ cache_clears (n (snd (m w))) = cache_clears (snd (m w))
   /\ exists qs,
        queries (n (snd (m w))) = (qs ++ queries (snd (m w)))%list
        /\ Forall (fun q => query_schema q = active_schema (snd (m w))) qs) ->
  request (n (snd (m w))) = request w
  /\ active_schema (n (snd (m w))) = active_schema w
  /\ tenants (n (snd (m w))) = tenants w
  /\ cache_clears (n (snd (m w))) = cache_clears w
  /\ exists qs,
       queries (n (snd (m w))) = (qs ++ queries w)%list
       /\ Forall (fun q => query_schema q = active_schema w) qs.
Proof.
  intros Hm (Hr & Hs & Ht & Hc & qs2 & Hq2 & Hf2).
  destruct (Hm w) as (Hr1 & Hs1 & Ht1 & Hc1 & qs1 & Hq1 & Hf1).
  repeat split; try congruence.
  exists (qs2 ++ qs1)%list. split.
  - rewrite Hq2, Hq1. apply app_assoc.
  - apply Forall_app. split; [| exact Hf1].
    rewrite Hs1 in Hf2. exact Hf2.
Qed.

Lemma lookup_only_bind {A B} (m : M A) (k : A -> M B) :
  lookup_only m -> (forall a, lookup_only (k a)) -> lookup_only (bind m k).
Proof.
  intros Hm Hk w. unfold bind.
  destruct (m w) as [[a | e] w1] eqn:E.
  - replace w1 with (snd (m w)) by (rewrite E; reflexivity).
    apply (lookup_only_step m w (fun v => snd (k a v)) Hm).
    apply Hk.
  - replace w1 with (snd (m w)) by (rewrite E; reflexivity).
    apply (Hm w).
Qed.

Lemma lookup_only_try_except {A} (m : M A) c h :
  lookup_only m -> (forall e, lookup_only (h e)) ->
  lookup_only (try_except m c h).
Proof.
  intros Hm Hh w. unfold try_except.
  destruct (m w) as [[a | e] w1] eqn:E.
  - replace w1 with (snd (m w)) by (rewrite E; reflexivity). apply (Hm w).
  - destruct (isinstance e c).
    + replace w1 with (snd (m w)) by (rewrite E; reflexivity).
      apply (lookup_only_step m w (fun v => snd (h e v)) Hm).
      apply Hh.
    + replace w1 with (snd (m w)) by (rewrite E; reflexivity). apply (Hm w).
Qed.

Lemma lookup_only_TenantMiddleware_get_tenant c :
  lookup_only (TenantMiddleware.get_tenant c).
Proof.
  unfold TenantMiddleware.get_tenant, TenantMiddleware.hostname_from_request.
  repeat (first
    [ apply lookup_only_bind | apply lookup_only_try_except
    | apply lookup_only_get_host | apply lookup_only_objects_get
    | apply lookup_only_ret | apply lookup_only_raise | intro ]).
Qed.

Lemma lookup_only_hostname_resolver : lookup_only hostname_resolver.
Proof. apply lookup_only_TenantMiddleware_get_tenant. Qed.

Lemma lookup_only_permissive_resolver : lookup_only permissive_resolver.
Proof. apply lookup_only_TenantMiddleware_get_tenant. Qed.

Lemma lookup_only_default_resolver settings d :
  lookup_only (default_resolver settings d).
Proof.
  unfold default_resolver, DefaultTenantMiddleware.get_tenant.
  apply lookup_only_try_except.
  - apply lookup_only_TenantMiddleware_get_tenant.
  - intro e.
    repeat (first
      [ apply lookup_only_bind | apply lookup_only_try_except
      | apply lookup_only_objects_get
      | apply lookup_only_ret | apply lookup_only_raise | intro ]).
Qed.

(** ** The schema-switch gate: [process_request] by the outcome of the
    resolver *)

(** What the gate leaves behind when the resolver, entered at the public
    schema, returned tenant [t] in world [w1]. *)
Lemma process_request_resolved settings g w t w1 :
  g (at_public settings w) = (Return (Some t), w1) ->
  BaseTenantMiddleware.process_request settings g w =
    (Return tt,
     mkWorld
       (mkRequest (host (request w1)) (host_error (request w1)) (Some t)
          (match PUBLIC_SCHEMA_URLCONF settings with
           | Some u =>
               if String.eqb (schema_name t) (get_public_schema_name settings)
               then Some u else urlconf (request w1)
           | None => urlconf (request w1)
           end))
       (schema_name t) (tenants w1) (S (cache_clears w1)) (queries w1)).
Proof.
  intros H. unfold BaseTenantMiddleware.process_request.
  unfold bind at 1. cbn -[bind].
  fold (at_public settings w).
  erewrite bind_Return by exact H.
  cbn. unfold hasattr_PUBLIC_SCHEMA_URLCONF.
  destruct (PUBLIC_SCHEMA_URLCONF settings) as [u|]; cbn.
  - destruct (String.eqb (schema_name t) (get_public_schema_name settings));
      destruct w1 as [[h he tn uc] sc ts cc qs]; reflexivity.
  - destruct w1 as [[h he tn uc] sc ts cc qs]; reflexivity.
Qed.

Lemma process_request_None settings g w w1 :
  g (at_public settings w) = (Return None, w1) ->
  BaseTenantMiddleware.process_request settings g w =
    (Raise (mkException Exception "Trying to set current tenant to None!"),
     w1).
Proof.
  intros H. unfold BaseTenantMiddleware.process_request.
  unfold bind at 1. cbn -[bind].
  fold (at_public settings w).
  erewrite bind_Return by exact H. reflexivity.
Qed.

Lemma process_request_Raise settings g w e w1 :
  g (at_public settings w) = (Raise e, w1) ->
  BaseTenantMiddleware.process_request settings g w = (Raise e, w1).
Proof.
  intros H. unfold BaseTenantMiddleware.process_request.
  unfold bind at 1. cbn -[bind].
  fold (at_public settings w).
  erewrite bind_Raise by exact H. reflexivity.
Qed.

(** A successful run of the gate is a run whose resolver returned a
    tenant. *)
Lemma process_request_Return_inv settings g w w' :
  BaseTenantMiddleware.process_request settings g w = (Return tt, w') ->
  exists t w1, g (at_public settings w) = (Return (Some t), w1).
Proof.
  intros H.
  destruct (g (at_public settings w)) as [[[t|]|e] w1] eqn:E.
  - exists t, w1. reflexivity.
  - rewrite (process_request_None _ _ _ _ E) in H. discriminate.
  - rewrite (process_request_Raise _ _ _ _ _ E) in H. discriminate.
Qed.

(** Whatever the resolver's outcome, the gate adds no query of its own. *)
Lemma process_request_queries settings g w :
  queries (snd (BaseTenantMiddleware.process_request settings g w)) =
  queries (snd (g (at_public settings w))).
Proof.
  destruct (g (at_public settings w)) as [[[t|]|e] w1] eqn:E.
  - rewrite (process_request_resolved _ _ _ _ _ E). reflexivity.
  - rewrite (process_request_None _ _ _ _ E). reflexivity.
  - rewrite (process_request_Raise _ _ _ _ _ E). reflexivity.
Qed.

(** ** The claims about the schema-switch gate *)

(** C1. After a successful run of the gate the connection points at the
    schema of the tenant the resolver returned, the request carries that
    tenant, and the gate has cleared the content-type cache exactly once:
    the count is one more than where the resolver left it, and one more
    than at the start of the run for a resolver that only looks tenants
    up. *)
Theorem gate_success_postcondition settings g w w' :
  BaseTenantMiddleware.process_request settings g w = (Return tt, w') ->
  exists t w1,
    g (at_public settings w) = (Return (Some t), w1)
    /\ active_schema w' = schema_name t
    /\ tenant (request w') = Some t
    /\ cache_clears w' = S (cache_clears w1)
    /\ (lookup_only g -> cache_clears w' = S (cache_clears w)).
Proof.
  intros H.
  destruct (process_request_Return_inv _ _ _ _ H) as (t & w1 & E).
  exists t, w1.
  rewrite (process_request_resolved _ _ _ _ _ E) in H.
  injection H as <-. cbn.
  repeat split; try assumption.
  intros L. destruct (L (at_public settings w)) as (_ & _ & _ & Hc & _).
  rewrite E in Hc. cbn in Hc. congruence.
Qed.

Lemma gate_success_postcondition_witness :
  exists t w1,
    hostname_resolver
      (at_public example_settings (example_world "Tenant1.example.com:80"))
    = (Return (Some t), w1)
    /\ active_schema
         (snd (BaseTenantMiddleware.process_request example_settings
                 hostname_resolver (example_world "Tenant1.example.com:80")))
       = schema_name t
    /\ tenant
         (request
            (snd (BaseTenantMiddleware.process_request example_settings
                    hostname_resolver
                    (example_world "Tenant1.example.com:80"))))
       = Some t
    /\ cache_clears
         (snd (BaseTenantMiddleware.process_request example_settings
                 hostname_resolver (example_world "Tenant1.example.com:80")))
       = S (cache_clears w1)
    /\ (lookup_only hostname_resolver ->
        cache_clears
          (snd (BaseTenantMiddleware.process_request example_settings
                  hostname_resolver
                  (example_world "Tenant1.example.com:80")))
        = S (cache_clears (example_world "Tenant1.example.com:80"))).
Proof.
  apply (gate_success_postcondition example_settings hostname_resolver
           (example_world "Tenant1.example.com:80")).
  reflexivity.
Defined.

(** C2. The gate moves the connection to the public schema and only then
    invokes the resolver.  The resolver is run in the arriving world with
    the active schema replaced by the public one, and the run of the gate
    continues from the outcome of that very run; hence the gate's outcome
    depends on the resolver only through what it does in worlds whose
    connection points at the public schema, and every tenant query of a
    run with a resolver that only looks tenants up (the three resolvers of
    the source do) was executed under the public schema, whatever schema
    the connection was at when the request arrived. *)
Theorem gate_lookup_at_public settings g w :
  match g (mkWorld (request w) (get_public_schema_name settings)
             (tenants w) (cache_clears w) (queries w)) with
  | (Return (Some t), w1) =>
      exists w',
        BaseTenantMiddleware.process_request settings g w = (Return tt, w')
        /\ queries w' = queries w1
        /\ tenants w' = tenants w1
  | (Return None, w1) =>
      BaseTenantMiddleware.process_request settings g w =
        (Raise (mkException Exception "Trying to set current tenant to None!"),
         w1)
  | (Raise e, w1) =>
      BaseTenantMiddleware.process_request settings g w = (Raise e, w1)
  end
  /\ (forall g' : M (option Tenant),
         (forall v, active_schema v = get_public_schema_name settings ->
                    g' v = g v) ->
         BaseTenantMiddleware.process_request settings g' w =
         BaseTenantMiddleware.process_request settings g w)
  /\ (lookup_only g ->
      exists qs,
        queries (snd (BaseTenantMiddleware.process_request settings g w))
        = (qs ++ queries w)%list
        /\ Forall (fun q => query_schema q = get_public_schema_name settings)
             qs).
Proof.
  change (mkWorld (request w) (get_public_schema_name settings)
            (tenants w) (cache_clears w) (queries w))
    with (at_public settings w).
  split; [| split].
  - destruct (g (at_public settings w)) as [[[t|]|e] w1] eqn:E.
    + eexists. split; [apply process_request_resolved; exact E |].
      split; reflexivity.
    + apply process_request_None. exact E.
    + apply process_request_Raise. exact E.
  - intros g' H.
    assert (E' : g' (at_public settings w) = g (at_public settings w))
      by (apply H; reflexivity).
    destruct (g (at_public settings w)) as [[[t|]|e] w1] eqn:E.
    + rewrite (process_request_resolved _ _ _ _ _ E).
      apply process_request_resolved. exact E'.
    + rewrite (process_request_None _ _ _ _ E).
      apply process_request_None. exact E'.
    + rewrite (process_request_Raise _ _ _ _ _ E).
      apply process_request_Raise. exact E'.
  - intros L. rewrite process_request_queries.
    destruct (L (at_public settings w)) as (_ & _ & _ & _ & qs & Hq & Hf).
    exists qs. split; assumption.
Qed.

Lemma gate_lookup_at_public_witness :
  BaseTenantMiddleware.process_request example_settings
    (default_resolver example_settings None)
    (example_world "unknown.example.com")
  = (Return tt,
     snd (BaseTenantMiddleware.process_request example_settings
            (default_resolver example_settings None)
            (example_world "unknown.example.com")))
  /\ exists qs,
       queries
         (snd (BaseTenantMiddleware.process_request example_settings
                 (default_resolver example_settings None)
                 (example_world "unknown.example.com")))
       = (qs ++ queries (example_world "unknown.example.com"))%list
       /\ Forall
            (fun q =>
               query_schema q = get_public_schema_name example_settings)
            qs.
Proof.
  split; [reflexivity |].
  apply (proj2 (proj2 (gate_lookup_at_public example_settings
                         (default_resolver example_settings None)
                         (example_world "unknown.example.com")))).
  apply lookup_only_default_resolver.
Defined.

(** C5. When the resolver returns [None] the gate raises
    [Exception("Trying to set current tenant to None!")] and the world is
    the one the resolver left: no tenant is attached, the connection is not
    switched again, the cache is not cleared and the urlconf is not
    touched.  For a resolver that only looks tenants up, that world still
    has the connection at the public schema and the request and the cache
    as they were when the request arrived. *)
Theorem gate_rejects_None settings g w w1 :
  g (at_public settings w) = (Return None, w1) ->
  BaseTenantMiddleware.process_request settings g w =
    (Raise (mkException Exception "Trying to set current tenant to None!"),
     w1)
  /\ (lookup_only g ->
      active_schema w1 = get_public_schema_name settings
      /\ request w1 = request w
      /\ cache_clears w1 = cache_clears w).
Proof.
  intros E. split.
  - apply process_request_None. exact E.
  - intros L. destruct (L (at_public settings w)) as (Hr & Hs & _ & Hc & _).
    rewrite E in Hr, Hs, Hc. cbn in Hr, Hs, Hc. repeat split; assumption.
Qed.

Lemma gate_rejects_None_witness :
  BaseTenantMiddleware.process_request example_settings (ret None)
    (example_world "tenant1.example.com") =
    (Raise (mkException Exception "Trying to set current tenant to None!"),
     at_public example_settings (example_world "tenant1.example.com"))
  /\ (lookup_only (@ret (option Tenant) None) ->
      active_schema
        (at_public example_settings (example_world "tenant1.example.com"))
      = get_public_schema_name example_settings
      /\ request
           (at_public example_settings (example_world "tenant1.example.com"))
         = request (example_world "tenant1.example.com")
      /\ cache_clears
           (at_public example_settings (example_world "tenant1.example.com"))
         = cache_clears (example_world "tenant1.example.com")).
Proof.
  apply (gate_rejects_None example_settings (ret None)
           (example_world "tenant1.example.com")).
  reflexivity.
Defined.

(** C8. On a successful run the request's urlconf is set to
    [settings.PUBLIC_SCHEMA_URLCONF] when that setting exists and the
    resolved tenant's schema is the public one, and in every other case it
    is what the resolver left it at. *)
Theorem gate_urlconf_override settings g w t w1 :
  g (at_public settings w) = (Return (Some t), w1) ->
  exists w',
    BaseTenantMiddleware.process_request settings g w = (Return tt, w')
    /\ ((exists u,
           PUBLIC_SCHEMA_URLCONF settings = Some u
           /\ schema_name t = get_public_schema_name settings
           /\ urlconf (request w') = Some u)
        \/ ((PUBLIC_SCHEMA_URLCONF settings = None
             \/ schema_name t <> get_public_schema_name settings)
            /\ urlconf (request w') = urlconf (request w1))).
Proof.
  intros E. eexists. split.
  - apply process_request_resolved. exact E.
  - cbn. destruct (PUBLIC_SCHEMA_URLCONF settings) as [u|].
    + destruct (String.eqb_spec (schema_name t)
                  (get_public_schema_name settings)) as [Heq | Hne].
      * left. exists u. repeat split. exact Heq.
      * right. split; [right; exact Hne | reflexivity].
    + right. split; [left; reflexivity | reflexivity].
Qed.

Lemma gate_urlconf_override_witness :
  exists w',
    BaseTenantMiddleware.process_request example_settings
      (default_resolver example_settings None)
      (example_world "unknown.example.com") = (Return tt, w')
    /\ ((exists u,
           PUBLIC_SCHEMA_URLCONF example_settings = Some u
           /\ schema_name (mkTenant "public" "example.com")
              = get_public_schema_name example_settings
           /\ urlconf (request w') = Some u)
        \/ ((PUBLIC_SCHEMA_URLCONF example_settings = None
             \/ schema_name (mkTenant "public" "example.com")
                <> get_public_schema_name example_settings)
            /\ urlconf (request w')
               = urlconf
                   (request
                      (snd (default_resolver example_settings None
                              (at_public example_settings
                                 (example_world "unknown.example.com"))))))).
Proof.
  apply (gate_urlconf_override example_settings
           (default_resolver example_settings None)
           (example_world "unknown.example.com")).
  reflexivity.
Defined.

(** C10. When the resolver raises, the gate raises the same exception and
    the world is the one the resolver left, entered from the arriving world
    with only the connection moved to the public schema: nothing is
    assigned to the request, the connection is not switched to a tenant,
    the cache is not cleared and the urlconf is not touched.  For a
    resolver that only looks tenants up the request, the cache count and
    the tenant table are those of the arriving world and the connection is
    at the public schema. *)
Theorem gate_propagates_failure settings g w e w1 :
  g (at_public settings w) = (Raise e, w1) ->
  BaseTenantMiddleware.process_request settings g w = (Raise e, w1)
  /\ request (at_public settings w) = request w
  /\ cache_clears (at_public settings w) = cache_clears w
  /\ (lookup_only g ->
      request w1 = request w
      /\ active_schema w1 = get_public_schema_name settings
      /\ cache_clears w1 = cache_clears w
      /\ tenants w1 = tenants w).
Proof.
  intros E. split; [| split; [| split]].
  - apply process_request_Raise. exact E.
  - reflexivity.
  - reflexivity.
  - intros L. destruct (L (at_public settings w)) as (Hr & Hs & Ht & Hc & _).
    rewrite E in Hr, Hs, Ht, Hc. cbn in Hr, Hs, Ht, Hc.
    repeat split; assumption.
Qed.

Lemma gate_propagates_failure_witness :
  BaseTenantMiddleware.process_request example_settings hostname_resolver
    (example_world "unknown.example.com")
  = (Raise (mkException Http404
              ("No tenant for hostname " ++ dquote ++ "unknown.example.com"
               ++ dquote)),
     snd (hostname_resolver
            (at_public example_settings
               (example_world "unknown.example.com"))))
  /\ tenant
       (request
          (snd (BaseTenantMiddleware.process_request example_settings
                  hostname_resolver (example_world "unknown.example.com"))))
     = None.
Proof.
  split.
  - apply (gate_propagates_failure example_settings hostname_resolver
             (example_world "unknown.example.com")).
    reflexivity.
  - reflexivity.
Defined.

(** ** The resolvers by the content of the tenant table *)

Lemma filter_none {A} (f : A -> bool) (l : list A) :
  (forall x, In x l -> f x = false) -> filter f l = [].
Proof.
  induction l as [|a l IH]; intros H; cbn.
  - reflexivity.
  - rewrite (H a (or_introl eq_refl)). apply IH.
    intros x Hx. apply H. right. exact Hx.
Qed.

(** A key that is unique in the table selects exactly its row. *)
Lemma filter_unique_key (key : Tenant -> string) (l : list Tenant) t :
  NoDup (map key l) -> In t l ->
  filter (fun x => String.eqb (key x) (key t)) l = [t].
Proof.
  induction l as [|a l IH]; intros Hnd Hin; [destruct Hin |].
  cbn in Hnd. inversion Hnd as [|k ks Hnot Hnd']; subst.
  cbn. destruct Hin as [-> | Hin].
  - rewrite String.eqb_refl. f_equal.
    apply filter_none. intros x Hx.
    apply String.eqb_neq. intros Heq. apply Hnot.
    rewrite <- Heq. apply in_map. exact Hx.
  - destruct (String.eqb_spec (key a) (key t)) as [Heq | Hne].
    + exfalso. apply Hnot. rewrite Heq. apply in_map. exact Hin.
    + apply IH; assumption.
Qed.

Lemma rows_nil_iff l w :
  rows l w = [] <-> forall t, In t (tenants w) -> matches l t = false.
Proof.
  unfold rows. split.
  - intros H t Ht. destruct (matches l t) eqn:E; [| reflexivity].
    assert (I : In t (filter (matches l) (tenants w)))
      by (apply filter_In; split; assumption).
    rewrite H in I. destruct I.
  - apply filter_none.
Qed.

Lemma rows_by_domain_nil w :
  rows (by_domain_url (hostname_of w)) w = [] <->
  forall t, In t (tenants w) -> domain_url t <> hostname_of w.
Proof.
  rewrite rows_nil_iff. split; intros H t Ht.
  - apply String.eqb_neq. exact (H t Ht).
  - apply String.eqb_neq. exact (H t Ht).
Qed.

Lemma rows_by_schema_nil n w :
  rows (by_schema_name n) w = [] <->
  forall t, In t (tenants w) -> schema_name t <> n.
Proof.
  rewrite rows_nil_iff. split; intros H t Ht.
  - apply String.eqb_neq. exact (H t Ht).
  - apply String.eqb_neq. exact (H t Ht).
Qed.

Lemma rows_In l w t : In t (rows l w) -> In t (tenants w) /\ matches l t = true.
Proof. unfold rows. apply filter_In. Qed.

Lemma rows_unique_schema w t :
  NoDup (map schema_name (tenants w)) -> In t (tenants w) ->
  rows (by_schema_name (schema_name t)) w = [t].
Proof. apply (filter_unique_key schema_name). Qed.

Lemma rows_unique_domain w t :
  NoDup (map domain_url (tenants w)) -> In t (tenants w) ->
  rows (by_domain_url (domain_url t)) w = [t].
Proof. apply (filter_unique_key domain_url). Qed.

Lemma hostname_from_request_eq w :
  host_error (request w) = None ->
  TenantMiddleware.hostname_from_request w = (Return (hostname_of w), w).
Proof.
  intros H. unfold TenantMiddleware.hostname_from_request, bind, get_host.
  rewrite H. reflexivity.
Qed.

Lemma hostname_from_request_rejected w m :
  host_error (request w) = Some m ->
  TenantMiddleware.hostname_from_request w =
    (Raise (mkException DisallowedHost m), w).
Proof.
  intros H. unfold TenantMiddleware.hostname_from_request, bind, get_host.
  rewrite H. reflexivity.
Qed.

(** The hostname lookup by Django's verdict on the host and the number of
    rows at the request's hostname, for any class bound to
    [TENANT_NOT_FOUND_EXCEPTION]. *)
Lemma get_tenant_outcome c w :
  TenantMiddleware.get_tenant c w =
    match host_error (request w) with
    | Some m => (Raise (mkException DisallowedHost m), w)
    | None =>
        (match rows (by_domain_url (hostname_of w)) w with
         | [] => Raise (mkException c (no_tenant_message w))
         | [t] => Return (Some t)
         | _ :: _ :: _ =>
             Raise (several_rows
                      (List.length (rows (by_domain_url (hostname_of w)) w)))
         end,
         executed (by_domain_url (hostname_of w)) w)
    end.
Proof.
  unfold TenantMiddleware.get_tenant.
  destruct (host_error (request w)) as [m|] eqn:E.
  - erewrite bind_Raise by (apply hostname_from_request_rejected; exact E).
    reflexivity.
  - erewrite bind_Return by (apply hostname_from_request_eq; exact E).
    unfold try_except, bind, objects_get.
    destruct (rows (by_domain_url (hostname_of w)) w) as [|t [|t' ts]];
      reflexivity.
Qed.

Lemma get_tenant_found c w t :
  host_error (request w) = None ->
  rows (by_domain_url (hostname_of w)) w = [t] ->
  TenantMiddleware.get_tenant c w =
    (Return (Some t), executed (by_domain_url (hostname_of w)) w).
Proof. intros E H. rewrite get_tenant_outcome, E, H. reflexivity. Qed.

Lemma get_tenant_not_found c w :
  host_error (request w) = None ->
  (forall t, In t (tenants w) -> domain_url t <> hostname_of w) ->
  TenantMiddleware.get_tenant c w =
    (Raise (mkException c (no_tenant_message w)),
     executed (by_domain_url (hostname_of w)) w).
Proof.
  intros E H. apply rows_by_domain_nil in H.
  rewrite get_tenant_outcome, E, H. reflexivity.
Qed.

Lemma not__true d : not_ d = true <-> d = None \/ d = Some EmptyString.
Proof.
  destruct d as [[|c n]|]; cbn; split; intros H;
    try discriminate; try reflexivity; auto;
    destruct H as [H | H]; discriminate.
Qed.

Lemma issubclass_refl c : issubclass c c = true.
Proof. destruct c; reflexivity. Qed.

(** The [except] clause of [DefaultTenantMiddleware.get_tenant] is
    [fallback_lookup]. *)
Lemma except_clause settings d e w :
  (let schema_name := d in
   let schema_name :=
     if not_ schema_name then Some (get_public_schema_name settings)
     else schema_name in
   try_except
     (t <- objects_get
             (by_schema_name
                (match schema_name with
                 | Some n => n
                 | None => EmptyString
                 end)) ;;
      ret (Some t))
     DoesNotExist
     (fun _ => raise e)) w
  = fallback_lookup settings d e w.
Proof.
  cbv zeta.
  replace (match (if not_ d then Some (get_public_schema_name settings) else d)
           with Some n => n | None => EmptyString end)
    with (fallback_name settings d)
    by (destruct d as [[|c' n]|]; reflexivity).
  unfold try_except, bind, objects_get, fallback_lookup.
  destruct (rows (by_schema_name (fallback_name settings d)) w)
    as [|t [|t' ts]]; reflexivity.
Qed.

(** [DefaultTenantMiddleware.get_tenant] by the outcome of the inherited
    lookup, for any class bound to [TENANT_NOT_FOUND_EXCEPTION]. *)
Lemma DefaultTenantMiddleware_outcome settings c d w :
  DefaultTenantMiddleware.get_tenant settings c d w =
    match TenantMiddleware.get_tenant c w with
    | (Return o, w1) => (Return o, w1)
    | (Raise e, w1) =>
        if isinstance e c then fallback_lookup settings d e w1
        else (Raise e, w1)
    end.
Proof.
  unfold DefaultTenantMiddleware.get_tenant.
  unfold try_except at 1.
  unfold SuspiciousTenantMiddleware.get_tenant.
  destruct (TenantMiddleware.get_tenant c w) as [[o|e] w1]; [reflexivity |].
  destruct (isinstance e c); [| reflexivity].
  apply except_clause.
Qed.

(** The fallback resolver of the source by Django's verdict on the host
    and the rows at the request's hostname. *)
Lemma default_resolver_outcome settings d w :
  default_resolver settings d w =
    match host_error (request w) with
    | Some m => fallback_lookup settings d (mkException DisallowedHost m) w
    | None =>
        match rows (by_domain_url (hostname_of w)) w with
        | [] =>
            fallback_lookup settings d
              (mkException DisallowedHost (no_tenant_message w))
              (executed (by_domain_url (hostname_of w)) w)
        | _ :: _ => permissive_resolver w
        end
    end.
Proof.
  unfold default_resolver, permissive_resolver.
  unfold SuspiciousTenantMiddleware.get_tenant.
  rewrite DefaultTenantMiddleware_outcome.
  change DefaultTenantMiddleware.TENANT_NOT_FOUND_EXCEPTION
    with DisallowedHost.
  change SuspiciousTenantMiddleware.TENANT_NOT_FOUND_EXCEPTION
    with DisallowedHost.
  rewrite get_tenant_outcome.
  destruct (host_error (request w)) as [m|]; [reflexivity |].
  destruct (rows (by_domain_url (hostname_of w)) w) as [|t [|t' ts]];
    reflexivity.
Qed.

(** The fallback resolver when the host lookup is bound to find nothing. *)
Lemma default_resolver_unknown_host settings d w :
  unknown_host w ->
  default_resolver settings d w =
    match host_error (request w) with
    | Some m => fallback_lookup settings d (mkException DisallowedHost m) w
    | None =>
        fallback_lookup settings d
          (mkException DisallowedHost (no_tenant_message w))
          (executed (by_domain_url (hostname_of w)) w)
    end.
Proof.
  intros H. rewrite default_resolver_outcome.
  destruct (host_error (request w)) as [m|] eqn:E; [reflexivity |].
  rewrite (proj2 (rows_by_domain_nil w) (H E)). reflexivity.
Qed.

(** The exception the permissive resolver raises when the host lookup is
    bound to find nothing. *)
Lemma permissive_resolver_unknown_host w :
  unknown_host w ->
  fst (permissive_resolver w) =
    Raise (mkException DisallowedHost
             (match host_error (request w) with
              | Some m => m
              | None => no_tenant_message w
              end)).
Proof.
  intros H. unfold permissive_resolver, SuspiciousTenantMiddleware.get_tenant.
  rewrite get_tenant_outcome.
  destruct (host_error (request w)) as [m|] eqn:E; [reflexivity |].
  rewrite (proj2 (rows_by_domain_nil w) (H E)). reflexivity.
Qed.

Lemma fst_fallback_lookup_executed settings d e l w :
  fst (fallback_lookup settings d e (executed l w))
  = fst (fallback_lookup settings d e w).
Proof. reflexivity. Qed.

Lemma fallback_lookup_found settings d e w t :
  NoDup (map schema_name (tenants w)) ->
  In t (tenants w) ->
  schema_name t = fallback_name settings d ->
  fst (fallback_lookup settings d e w) = Return (Some t).
Proof.
  intros Hnd Hin Hname. unfold fallback_lookup. cbn [fst].
  rewrite <- Hname, (rows_unique_schema _ _ Hnd Hin). reflexivity.
Qed.

Lemma fallback_lookup_missing settings d e w :
  (forall t, In t (tenants w) -> schema_name t <> fallback_name settings d) ->
  fst (fallback_lookup settings d e w) = Raise e.
Proof.
  intros H. unfold fallback_lookup. cbn [fst].
  rewrite (proj2 (rows_by_schema_nil _ w) H). reflexivity.
Qed.

(** ** The claims about the resolvers *)

(** C3. On a request whose host matches no tenant's [domain_url] (Django
    rejects the host, or no row has the request's hostname), the
    default-fallback resolver returns the tenant whose [schema_name] is the
    fallback name when the table (with unique schema names) has one, and
    when it has none raises the very exception the permissive lookup
    raised: class [DisallowedHost], with the message of that lookup (the
    middleware's about the host, or Django's when it rejected the host),
    nothing about the fallback schema. *)
Theorem default_resolver_fallback settings d w :
  unknown_host w ->
  (forall t,
      NoDup (map schema_name (tenants w)) ->
      In t (tenants w) ->
      schema_name t = fallback_name settings d ->
      fst (default_resolver settings d w) = Return (Some t))
  /\ ((forall t, In t (tenants w) ->
                 schema_name t <> fallback_name settings d) ->
      fst (default_resolver settings d w) = fst (permissive_resolver w)
      /\ fst (default_resolver settings d w) =
         Raise (mkException DisallowedHost
                  (match host_error (request w) with
                   | Some m => m
                   | None => no_tenant_message w
                   end))).
Proof.
  intros H. rewrite (default_resolver_unknown_host _ _ _ H).
  rewrite (permissive_resolver_unknown_host _ H).
  split.
  - intros t Hnd Hin Hname.
    destruct (host_error (request w)) as [m|];
      [| rewrite fst_fallback_lookup_executed];
      apply fallback_lookup_found; assumption.
  - intros Hnone.
    destruct (host_error (request w)) as [m|];
      [| rewrite fst_fallback_lookup_executed];
      rewrite (fallback_lookup_missing _ _ _ _ Hnone); split; reflexivity.
Qed.

Lemma default_resolver_fallback_witness :
  fst (default_resolver example_settings None
         (example_world "unknown.example.com"))
  = Return (Some (mkTenant "public" "example.com"))
  /\ fst (default_resolver example_settings (Some "missing")
            (rejected_world "tenant1.example.com"))
     = Raise (mkException DisallowedHost (invalid_host "tenant1.example.com")).
Proof.
  assert (U : unknown_host (example_world "unknown.example.com")).
  { intros _ t [<- | [<- | []]]; discriminate. }
  assert (R : unknown_host (rejected_world "tenant1.example.com")).
  { intros E. discriminate E. }
  split.
  - apply (proj1 (default_resolver_fallback example_settings None
                    (example_world "unknown.example.com") U)).
    + repeat constructor; cbn; intuition discriminate.
    + left. reflexivity.
    + reflexivity.
  - apply (proj2 (default_resolver_fallback example_settings (Some "missing")
                    (rejected_world "tenant1.example.com") R)).
    intros t [<- | [<- | []]]; discriminate.
Defined.

(** The claim C4 as it is written fails on a host Django rejects: no row
    of the table is at the hostname of [evil.example.org], and the
    hostname resolver fails with the [DisallowedHost] that
    [request.get_host()] raised, not with [Http404]. *)
Lemma unknown_host_Http404_counterexample :
  ~ (forall w,
        (forall t, In t (tenants w) -> domain_url t <> hostname_of w) ->
        exists m, fst (hostname_resolver w) = Raise (mkException Http404 m)).
Proof.
  intros H.
  destruct (H (rejected_world "evil.example.org")) as [m Hm].
  - intros t [<- | [<- | []]]; discriminate.
  - discriminate Hm.
Qed.

(** C4, amended.  On a request whose host [request.get_host()] accepts and
    that matches no tenant's [domain_url], the hostname resolver raises
    [Http404] and the permissive resolver, after the same lookup, raises
    [DisallowedHost]; the two classes are different and neither derives
    from the other. *)
Theorem unknown_host_failure_kinds w :
  host_error (request w) = None ->
  (forall t, In t (tenants w) -> domain_url t <> hostname_of w) ->
  hostname_resolver w =
    (Raise (mkException Http404 (no_tenant_message w)),
     executed (by_domain_url (hostname_of w)) w)
  /\ permissive_resolver w =
       (Raise (mkException DisallowedHost (no_tenant_message w)),
        executed (by_domain_url (hostname_of w)) w)
  /\ Http404 <> DisallowedHost
  /\ issubclass Http404 DisallowedHost = false
  /\ issubclass DisallowedHost Http404 = false.
Proof.
  intros E H. repeat split.
  - apply get_tenant_not_found; assumption.
  - apply get_tenant_not_found; assumption.
  - discriminate.
Qed.

Lemma unknown_host_failure_kinds_witness :
  fst (hostname_resolver (example_world "unknown.example.com"))
  = Raise (mkException Http404
             (no_tenant_message (example_world "unknown.example.com")))
  /\ fst (permissive_resolver (example_world "unknown.example.com"))
     = Raise (mkException DisallowedHost
                (no_tenant_message (example_world "unknown.example.com"))).
Proof.
  assert (U : forall t, In t (tenants (example_world "unknown.example.com")) ->
                        domain_url t
                        <> hostname_of (example_world "unknown.example.com")).
  { intros t [<- | [<- | []]]; discriminate. }
  destruct (unknown_host_failure_kinds
              (example_world "unknown.example.com") eq_refl U)
    as (A & B & _).
  rewrite A, B. split; reflexivity.
Defined.

(** C9. Whenever [DEFAULT_SCHEMA_NAME] is falsy ([None] or the empty
    string) the fallback lookup, on a request whose host lookup is bound to
    find nothing, is by the public schema name: the last query executed is
    by [schema_name] equal to the public schema name (preceded by the query
    by host when Django accepted the host), and the resolver behaves as
    with [DEFAULT_SCHEMA_NAME = None]. *)
Theorem default_resolver_falsy_name settings d w :
  not_ d = true ->
  unknown_host w ->
  queries (snd (default_resolver settings d w)) =
    mkQuery (active_schema w)
      (by_schema_name (get_public_schema_name settings))
    :: match host_error (request w) with
       | None =>
           mkQuery (active_schema w) (by_domain_url (hostname_of w))
           :: queries w
       | Some _ => queries w
       end
  /\ default_resolver settings d w = default_resolver settings None w.
Proof.
  intros Hd H. apply not__true in Hd.
  rewrite !(default_resolver_unknown_host _ _ _ H).
  destruct (host_error (request w)) as [m|];
    destruct Hd as [-> | ->]; split; reflexivity.
Qed.

Lemma default_resolver_falsy_name_witness :
  (queries (snd (default_resolver example_settings (Some EmptyString)
                   (example_world "unknown.example.com"))) =
     [mkQuery "tenant9" (by_schema_name "public");
      mkQuery "tenant9" (by_domain_url "unknown.example.com")]
   /\ default_resolver example_settings (Some EmptyString)
        (example_world "unknown.example.com")
      = default_resolver example_settings None
          (example_world "unknown.example.com"))
  /\ queries (snd (default_resolver example_settings (Some EmptyString)
                     (rejected_world "evil.example.org"))) =
       [mkQuery "tenant9" (by_schema_name "public")].
Proof.
  split.
  - apply (default_resolver_falsy_name example_settings (Some EmptyString)
             (example_world "unknown.example.com")).
    + reflexivity.
    + intros _ t [<- | [<- | []]]; discriminate.
  - apply (default_resolver_falsy_name example_settings (Some EmptyString)
             (rejected_world "evil.example.org")).
    + reflexivity.
    + intros E. discriminate E.
Defined.

(** ** Host normalisation *)

Lemma hd_split_cons sep c s :
  hd EmptyString (split sep (String c s)) =
  if Ascii.eqb c sep then EmptyString
  else String c (hd EmptyString (split sep s)).
Proof.
  cbn. destruct (Ascii.eqb c sep); [reflexivity |].
  destruct (split sep s); reflexivity.
Qed.

(** The piece before the first separator of a string without one is the
    string, with or without a suffix behind a separator. *)
Lemma hd_split_no_sep sep h :
  mem sep h = false -> hd EmptyString (split sep h) = h.
Proof.
  induction h as [|c h IH]; intros H; [reflexivity |].
  rewrite hd_split_cons. cbn in H. apply orb_false_iff in H as [Hc Hh].
  rewrite Hc, (IH Hh). reflexivity.
Qed.

Lemma hd_split_suffix sep h p :
  mem sep h = false -> hd EmptyString (split sep (h ++ String sep p)) = h.
Proof.
  induction h as [|c h IH]; intros H.
  - cbn [append]. rewrite hd_split_cons, Ascii.eqb_refl. reflexivity.
  - cbn [append]. rewrite hd_split_cons. cbn in H.
    apply orb_false_iff in H as [Hc Hh].
    rewrite Hc, (IH Hh). reflexivity.
Qed.

Lemma mem_colon_lower h : mem ":" (lower h) = false -> mem ":" h = false.
Proof.
  induction h as [|c h IH]; intros H; [reflexivity |].
  cbn in H |- *. apply orb_false_iff in H as [Hc Hh].
  rewrite (IH Hh), orb_false_r.
  destruct (Ascii.eqb_spec c ":") as [-> | Hne]; [| reflexivity].
  exact Hc.
Qed.

Lemma prefix_lower p : forall s,
  String.prefix p s = true -> String.prefix (lower p) (lower s) = true.
Proof.
  induction p as [|a p IH]; intros [|b s] H; cbn in *;
    try reflexivity; try discriminate.
  destruct (ascii_dec a b) as [-> | Hne]; [| discriminate].
  destruct (ascii_dec (lower_ascii b) (lower_ascii b)) as [_ | Hne];
    [apply IH; exact H | contradiction].
Qed.

(** A host none of whose case variants starts with [www.] is not
    stripped. *)
Lemma remove_www_id h :
  startswith (lower h) "www." = false -> remove_www h = h.
Proof.
  intros H. unfold remove_www, startswith in *.
  destruct (String.prefix "www." h) eqn:E; [| reflexivity].
  apply prefix_lower in E. change (lower "www.") with "www." in E.
  congruence.
Qed.


(** C6, on the host of the claim.  [remove_www] runs before [lower], so
    the upper-case prefix of [WWW.Acme.com:8080] is not recognised: the
    request is looked up under [www.acme.com], not under [acme.com]. *)
Theorem hostname_from_request_upper_www :
  fst (TenantMiddleware.hostname_from_request
         (example_world "WWW.Acme.com:8080"))
  = Return "www.acme.com"
  /\ fst (TenantMiddleware.hostname_from_request
            (example_world "WWW.Acme.com:8080"))
     <> Return "acme.com".
Proof. split; [reflexivity | discriminate]. Qed.

(** The claim C7 as it is written fails on a tenant whose [domain_url] is
    not in the form host names are normalised to: the only tenant, with
    [domain_url] [Acme.com], is not found by a request for host
    [Acme.com], which Django accepts. *)
Lemma hostname_resolver_any_domain_counterexample :
  ~ (forall w T,
        NoDup (map domain_url (tenants w)) ->
        In T (tenants w) ->
        host (request w) = domain_url T ->
        fst (hostname_resolver w) = Return (Some T)).
Proof.
  intros H.
  specialize (H (mkWorld (mkRequest "Acme.com" None None None) "public"
                   [mkTenant "acme" "Acme.com"] 0 [])
                (mkTenant "acme" "Acme.com")).
  cbn in H.
  assert (N : NoDup ["Acme.com"]) by (repeat constructor; intros []).
  specialize (H N (or_introl eq_refl) eq_refl).
  discriminate H.
Qed.

(** C7, amended.  In a tenant table with unique [domain_url]s, a tenant
    [T] whose [domain_url] is in normalised form (lower case, no colon, no
    leading [www.]) is what the hostname resolver returns for a request
    whose host [request.get_host()] accepts and is that [domain_url] in any
    letter case, with or without a port suffix. *)
Theorem hostname_resolver_finds_normalised w T h port :
  host_error (request w) = None ->
  NoDup (map domain_url (tenants w)) ->
  In T (tenants w) ->
  lower h = domain_url T ->
  mem ":" (domain_url T) = false ->
  startswith (domain_url T) "www." = false ->
  host (request w) = h \/ host (request w) = h ++ String ":" port ->
  fst (hostname_resolver w) = Return (Some T).
Proof.
  intros Hok Hnd Hin Hlow Hcolon Hwww Hhost.
  assert (Hc : mem ":" h = false)
    by (apply mem_colon_lower; rewrite Hlow; exact Hcolon).
  assert (E : hostname_of w = domain_url T).
  { unfold hostname_of.
    replace (hd EmptyString (split ":" (host (request w)))) with h.
    - rewrite remove_www_id; [exact Hlow | rewrite Hlow; exact Hwww].
    - destruct Hhost as [-> | ->]; symmetry.
      + apply hd_split_no_sep. exact Hc.
      + apply hd_split_suffix. exact Hc. }
  unfold hostname_resolver.
  rewrite (get_tenant_found _ w T); [reflexivity | exact Hok |].
  rewrite E. apply rows_unique_domain; assumption.
Qed.

Lemma hostname_resolver_finds_normalised_witness :
  fst (hostname_resolver (example_world "Tenant1.Example.COM:8000"))
  = Return (Some (mkTenant "tenant1" "tenant1.example.com")).
Proof.
  apply (hostname_resolver_finds_normalised
           (example_world "Tenant1.Example.COM:8000")
           (mkTenant "tenant1" "tenant1.example.com")
           "Tenant1.Example.COM" "8000").
  - reflexivity.
  - repeat constructor; cbn; intuition discriminate.
  - right. left. reflexivity.
  - reflexivity.
  - reflexivity.
  - reflexivity.
  - right. reflexivity.
Defined.

(** ** Further properties of the resolvers *)

Lemma hostname_lookup_sound_aux c w o w' :
  TenantMiddleware.get_tenant c w = (Return o, w') ->
  exists t,
    o = Some t /\ In t (tenants w) /\ domain_url t = hostname_of w
    /\ host_error (request w) = None.
Proof.
  rewrite get_tenant_outcome. intros H.
  destruct (host_error (request w)) as [m|]; [discriminate |].
  destruct (rows (by_domain_url (hostname_of w)) w) as [|t [|t' ts]] eqn:E;
    try discriminate.
  injection H as <- _. exists t.
  destruct (rows_In (by_domain_url (hostname_of w)) w t) as [Hin Hm].
  { rewrite E. left. reflexivity. }
  repeat split; try assumption.
  apply String.eqb_eq. exact Hm.
Qed.

(** A tenant the hostname lookup returns is a row of the table whose
    [domain_url] is the request's hostname; the lookup never returns
    [None], whatever class is bound to [TENANT_NOT_FOUND_EXCEPTION]. *)
Theorem hostname_lookup_sound c w o w' :
  TenantMiddleware.get_tenant c w = (Return o, w') ->
  exists t,
    o = Some t
    /\ In t (tenants w)
    /\ domain_url t = hostname_of w
    /\ w' = executed (by_domain_url (hostname_of w)) w.
Proof.
  intros H.
  destruct (hostname_lookup_sound_aux _ _ _ _ H) as (t & Ho & Hin & Hd & He).
  exists t. repeat split; try assumption.
  rewrite get_tenant_outcome, He in H. injection H as _ <-. reflexivity.
Qed.

Lemma hostname_lookup_sound_witness :
  exists t,
    Some (mkTenant "tenant1" "tenant1.example.com") = Some t
    /\ In t (tenants (example_world "tenant1.example.com:8000"))
    /\ domain_url t = hostname_of (example_world "tenant1.example.com:8000")
    /\ executed (by_domain_url "tenant1.example.com")
         (example_world "tenant1.example.com:8000")
       = executed
           (by_domain_url
              (hostname_of (example_world "tenant1.example.com:8000")))
           (example_world "tenant1.example.com:8000").
Proof.
  apply (hostname_lookup_sound Http404
           (example_world "tenant1.example.com:8000")).
  reflexivity.
Defined.

(** On a host [request.get_host()] accepts and that several rows claim,
    the hostname lookup raises [MultipleObjectsReturned], not the class
    bound to [TENANT_NOT_FOUND_EXCEPTION], after its one query, and the
    fallback resolver passes that exception on without a fallback
    lookup. *)
Theorem hostname_lookup_duplicates settings c d w :
  host_error (request w) = None ->
  2 <= List.length (rows (by_domain_url (hostname_of w)) w) ->
  exists e,
    exc_class e = MultipleObjectsReturned
    /\ TenantMiddleware.get_tenant c w =
         (Raise e, executed (by_domain_url (hostname_of w)) w)
    /\ default_resolver settings d w =
         (Raise e, executed (by_domain_url (hostname_of w)) w).
Proof.
  intros E H.
  exists (several_rows
            (List.length (rows (by_domain_url (hostname_of w)) w))).
  split; [reflexivity |].
  rewrite default_resolver_outcome.
  unfold permissive_resolver, SuspiciousTenantMiddleware.get_tenant.
  rewrite !get_tenant_outcome, E.
  destruct (rows (by_domain_url (hostname_of w)) w) as [|t [|t' ts]].
  - inversion H.
  - cbn in H. inversion H as [|n H1]. inversion H1.
  - split; reflexivity.
Qed.

Lemma hostname_lookup_duplicates_witness :
  exists e,
    exc_class e = MultipleObjectsReturned
    /\ TenantMiddleware.get_tenant Http404
         (clashing_world "shared.example.com") =
         (Raise e,
          executed
            (by_domain_url (hostname_of (clashing_world "shared.example.com")))
            (clashing_world "shared.example.com"))
    /\ default_resolver example_settings None
         (clashing_world "shared.example.com") =
         (Raise e,
          executed
            (by_domain_url (hostname_of (clashing_world "shared.example.com")))
            (clashing_world "shared.example.com")).
Proof.
  apply (hostname_lookup_duplicates example_settings Http404 None
           (clashing_world "shared.example.com")).
  - reflexivity.
  - apply le_n.
Defined.

(** A tenant the fallback resolver returns is a row of the table: either
    the row at the hostname of a host Django accepted, or the row whose
    [schema_name] is the fallback name, and then Django rejected the host
    or no row is at its hostname.  It never returns [None]. *)
Theorem default_resolver_sound settings d w o w' :
  default_resolver settings d w = (Return o, w') ->
  exists t,
    o = Some t
    /\ In t (tenants w)
    /\ ((host_error (request w) = None /\ domain_url t = hostname_of w)
        \/ (schema_name t = fallback_name settings d /\ unknown_host w)).
Proof.
  rewrite default_resolver_outcome. intros H.
  assert (F : forall e v,
             tenants v = tenants w ->
             fallback_lookup settings d e v = (Return o, w') ->
             exists t, o = Some t /\ In t (tenants w)
                       /\ schema_name t = fallback_name settings d).
  { intros e v Hv. unfold fallback_lookup.
    destruct (rows (by_schema_name (fallback_name settings d)) v)
      as [|t [|t' ts]] eqn:R; try discriminate.
    intros G. injection G as <- _. exists t.
    destruct (rows_In (by_schema_name (fallback_name settings d)) v t)
      as [Hin Hm].
    { rewrite R. left. reflexivity. }
    rewrite Hv in Hin. repeat split; [exact Hin |].
    apply String.eqb_eq. exact Hm. }
  destruct (host_error (request w)) as [m|] eqn:E.
  - destruct (F _ _ eq_refl H) as (t & Ho & Hin & Hn).
    exists t. repeat split; try assumption.
    right. split; [exact Hn |]. intros A. rewrite E in A. discriminate A.
  - destruct (rows (by_domain_url (hostname_of w)) w) as [|r rs] eqn:R.
    + destruct (F _ (executed (by_domain_url (hostname_of w)) w) eq_refl H)
        as (t & Ho & Hin & Hn).
      exists t. repeat split; try assumption.
      right. split; [exact Hn |]. intros _.
      apply rows_by_domain_nil. exact R.
    + unfold permissive_resolver, SuspiciousTenantMiddleware.get_tenant in H.
      destruct (hostname_lookup_sound_aux _ _ _ _ H)
        as (t & Ho & Hin & Hd & _).
      exists t. repeat split; try assumption.
      left. split; [reflexivity | exact Hd].
Qed.

Lemma default_resolver_sound_witness :
  exists t,
    Some (mkTenant "public" "example.com") = Some t
    /\ In t (tenants (rejected_world "tenant1.example.com"))
    /\ ((host_error (request (rejected_world "tenant1.example.com")) = None
         /\ domain_url t = hostname_of (rejected_world "tenant1.example.com"))
        \/ (schema_name t = fallback_name example_settings None
            /\ unknown_host (rejected_world "tenant1.example.com"))).
Proof.
  apply (default_resolver_sound example_settings None
           (rejected_world "tenant1.example.com")
           (Some (mkTenant "public" "example.com"))
           (snd (default_resolver example_settings None
                   (rejected_world "tenant1.example.com")))).
  reflexivity.
Defined.

(** When the host lookup is bound to find nothing and several rows carry
    the fallback schema name, the fallback resolver raises
    [MultipleObjectsReturned]: only [DoesNotExist] from the fallback lookup
    is turned back into the original exception. *)
Theorem default_resolver_fallback_duplicates settings d w :
  unknown_host w ->
  2 <= List.length (rows (by_schema_name (fallback_name settings d)) w) ->
  exists e,
    exc_class e = MultipleObjectsReturned
    /\ fst (default_resolver settings d w) = Raise e.
Proof.
  intros H L.
  exists (several_rows
            (List.length (rows (by_schema_name (fallback_name settings d)) w))).
  split; [reflexivity |].
  rewrite (default_resolver_unknown_host _ _ _ H).
  destruct (host_error (request w)) as [m|];
    [| rewrite fst_fallback_lookup_executed];
    unfold fallback_lookup; cbn [fst];
    (destruct (rows (by_schema_name (fallback_name settings d)) w)
       as [|t [|t' ts]];
     [ inversion L
     | cbn in L; inversion L as [|n L1]; inversion L1
     | reflexivity ]).
Qed.

Lemma default_resolver_fallback_duplicates_witness :
  exists e,
    exc_class e = MultipleObjectsReturned
    /\ fst (default_resolver example_settings None
              (clashing_world "unknown.example.com")) = Raise e.
Proof.
  apply (default_resolver_fallback_duplicates example_settings None
           (clashing_world "unknown.example.com")).
  - intros _ t [<- | [<- | []]]; discriminate.
  - apply le_n.
Defined.

(** On a host [request.get_host()] accepts and that some row claims, the
    fallback resolver is the permissive resolver: one query, by host, and
    [DEFAULT_SCHEMA_NAME] plays no part. *)
Theorem default_resolver_known_host settings d w t :
  host_error (request w) = None ->
  In t (tenants w) ->
  domain_url t = hostname_of w ->
  default_resolver settings d w = permissive_resolver w
  /\ queries (snd (default_resolver settings d w)) =
       mkQuery (active_schema w) (by_domain_url (hostname_of w)) :: queries w.
Proof.
  intros E Hin Hd.
  assert (D : default_resolver settings d w = permissive_resolver w).
  { rewrite default_resolver_outcome, E.
    destruct (rows (by_domain_url (hostname_of w)) w) as [|r rs] eqn:R;
      [| reflexivity].
    exfalso. exact (proj1 (rows_by_domain_nil w) R t Hin Hd). }
  rewrite D. split; [reflexivity |].
  unfold permissive_resolver, SuspiciousTenantMiddleware.get_tenant.
  rewrite get_tenant_outcome, E. reflexivity.
Qed.

Lemma default_resolver_known_host_witness :
  default_resolver example_settings (Some "tenant1")
    (example_world "example.com")
  = permissive_resolver (example_world "example.com")
  /\ queries (snd (default_resolver example_settings (Some "tenant1")
                     (example_world "example.com"))) =
       mkQuery (active_schema (example_world "example.com"))
         (by_domain_url (hostname_of (example_world "example.com")))
       :: queries (example_world "example.com").
Proof.
  apply (default_resolver_known_host example_settings (Some "tenant1")
           (example_world "example.com") (mkTenant "public" "example.com")).
  - reflexivity.
  - left. reflexivity.
  - reflexivity.
Defined.

(** A subclass of [DefaultTenantMiddleware] that rebinds
    [TENANT_NOT_FOUND_EXCEPTION] to any class keeps the fallback for hosts
    Django accepts: on an unknown host the row with the fallback schema
    name is returned when schema names are unique, and without such a row
    the exception raised is of the rebound class, with the message about
    the host.  On a host Django rejects the fallback is reached only when
    the rebound class is [DisallowedHost] or a class it derives from;
    otherwise Django's exception passes, with no query. *)
Theorem fallback_for_any_class settings c d w :
  (host_error (request w) = None ->
   (forall t, In t (tenants w) -> domain_url t <> hostname_of w) ->
   (forall t,
       NoDup (map schema_name (tenants w)) ->
       In t (tenants w) ->
       schema_name t = fallback_name settings d ->
       fst (DefaultTenantMiddleware.get_tenant settings c d w)
       = Return (Some t))
   /\ ((forall t, In t (tenants w) ->
                  schema_name t <> fallback_name settings d) ->
       fst (DefaultTenantMiddleware.get_tenant settings c d w)
       = Raise (mkException c (no_tenant_message w))))
  /\ (forall m,
         host_error (request w) = Some m ->
         DefaultTenantMiddleware.get_tenant settings c d w =
           if issubclass DisallowedHost c
           then fallback_lookup settings d (mkException DisallowedHost m) w
           else (Raise (mkException DisallowedHost m), w)).
Proof.
  rewrite DefaultTenantMiddleware_outcome, get_tenant_outcome. split.
  - intros E H. rewrite E.
    rewrite (proj2 (rows_by_domain_nil w) H).
    unfold isinstance. cbn [exc_class]. rewrite issubclass_refl.
    rewrite fst_fallback_lookup_executed. split.
    + intros t Hnd Hin Hname. apply fallback_lookup_found; assumption.
    + intros Hnone. apply fallback_lookup_missing. exact Hnone.
  - intros m E. rewrite E. reflexivity.
Qed.

Lemma fallback_for_any_class_witness :
  (fst (DefaultTenantMiddleware.get_tenant example_settings Http404
          (Some "tenant1") (example_world "unknown.example.com"))
   = Return (Some (mkTenant "tenant1" "tenant1.example.com"))
   /\ fst (DefaultTenantMiddleware.get_tenant example_settings Http404
             (Some "missing") (example_world "unknown.example.com"))
      = Raise (mkException Http404
                 (no_tenant_message (example_world "unknown.example.com"))))
  /\ DefaultTenantMiddleware.get_tenant example_settings Http404
       (Some "tenant1") (rejected_world "evil.example.org")
     = (Raise (mkException DisallowedHost (invalid_host "evil.example.org")),
        rejected_world "evil.example.org").
Proof.
  assert (U : forall t, In t (tenants (example_world "unknown.example.com")) ->
                        domain_url t
                        <> hostname_of (example_world "unknown.example.com")).
  { intros t [<- | [<- | []]]; discriminate. }
  split; [split |].
  - apply (proj1 (proj1 (fallback_for_any_class example_settings Http404
                           (Some "tenant1")
                           (example_world "unknown.example.com"))
                    eq_refl U)).
    + repeat constructor; cbn; intuition discriminate.
    + right. left. reflexivity.
    + reflexivity.
  - apply (proj2 (proj1 (fallback_for_any_class example_settings Http404
                           (Some "missing")
                           (example_world "unknown.example.com"))
                    eq_refl U)).
    intros t [<- | [<- | []]]; discriminate.
  - apply (proj2 (fallback_for_any_class example_settings Http404
                    (Some "tenant1") (rejected_world "evil.example.org"))
             (invalid_host "evil.example.org")).
    reflexivity.
Defined.

(** On a host [request.get_host()] rejects, the hostname lookup raises
    Django's [DisallowedHost] whatever class is bound to
    [TENANT_NOT_FOUND_EXCEPTION], before any query.  The fallback resolver
    of the source catches it: it executes the query by the fallback schema
    name only, and returns the row with that name when schema names are
    unique, whether or not some row is stored under the rejected host. *)
Theorem rejected_host_skips_lookup settings c d w m :
  host_error (request w) = Some m ->
  TenantMiddleware.get_tenant c w = (Raise (mkException DisallowedHost m), w)
  /\ queries (snd (default_resolver settings d w)) =
       mkQuery (active_schema w) (by_schema_name (fallback_name settings d))
       :: queries w
  /\ (forall t,
         NoDup (map schema_name (tenants w)) ->
         In t (tenants w) ->
         schema_name t = fallback_name settings d ->
         fst (default_resolver settings d w) = Return (Some t)).
Proof.
  intros E. rewrite get_tenant_outcome, default_resolver_outcome, E.
  repeat split.
  intros t Hnd Hin Hname. apply fallback_lookup_found; assumption.
Qed.

Lemma rejected_host_skips_lookup_witness :
  TenantMiddleware.get_tenant Http404 (rejected_world "tenant1.example.com")
  = (Raise (mkException DisallowedHost (invalid_host "tenant1.example.com")),
     rejected_world "tenant1.example.com")
  /\ queries (snd (default_resolver example_settings None
                     (rejected_world "tenant1.example.com"))) =
       mkQuery "tenant9" (by_schema_name "public")
       :: queries (rejected_world "tenant1.example.com").
Proof.
  destruct (rejected_host_skips_lookup example_settings Http404 None
              (rejected_world "tenant1.example.com")
              (invalid_host "tenant1.example.com") eq_refl)
    as (A & B & _).
  split; [exact A | exact B].
Defined.

(** ** Further properties of the schema-switch gate *)

Lemma reads_host_and_table_get_tenant c :
  reads_host_and_table (TenantMiddleware.get_tenant c).
Proof.
  intros w v Hh He Ht. rewrite !get_tenant_outcome.
  unfold rows, no_tenant_message, hostname_of. rewrite Hh, He, Ht.
  destruct (host_error (request v)); reflexivity.
Qed.

Lemma returns_rows_get_tenant c : returns_rows (TenantMiddleware.get_tenant c).
Proof.
  intros w o w' H.
  destruct (hostname_lookup_sound_aux _ _ _ _ H) as (t & Ho & Hin & _).
  exists t. split; assumption.
Qed.

Lemma returns_rows_default_resolver settings d :
  returns_rows (default_resolver settings d).
Proof.
  intros w o w'. unfold default_resolver.
  rewrite DefaultTenantMiddleware_outcome.
  destruct (TenantMiddleware.get_tenant
              DefaultTenantMiddleware.TENANT_NOT_FOUND_EXCEPTION w)
    as [[o1|e] w1] eqn:G.
  - intros H. injection H as <- _.
    apply (returns_rows_get_tenant _ _ _ _ G).
  - assert (T : tenants w1 = tenants w).
    { destruct (lookup_only_TenantMiddleware_get_tenant
                  DefaultTenantMiddleware.TENANT_NOT_FOUND_EXCEPTION w)
        as (_ & _ & Ht & _).
      rewrite G in Ht. exact Ht. }
    destruct (isinstance e DefaultTenantMiddleware.TENANT_NOT_FOUND_EXCEPTION);
      [| discriminate].
    unfold fallback_lookup.
    destruct (rows (by_schema_name (fallback_name settings d)) w1)
      as [|t [|t' ts]] eqn:R; try discriminate.
    intros H. injection H as <- _. exists t. split; [reflexivity |].
    rewrite <- T.
    apply (rows_In (by_schema_name (fallback_name settings d))).
    rewrite R. left. reflexivity.
Qed.

Lemma reads_host_and_table_default_resolver settings d :
  reads_host_and_table (default_resolver settings d).
Proof.
  intros w v Hh He Ht. rewrite !default_resolver_outcome.
  unfold permissive_resolver, SuspiciousTenantMiddleware.get_tenant.
  rewrite !get_tenant_outcome.
  unfold fallback_lookup, rows, no_tenant_message, hostname_of.
  cbn [tenants executed].
  rewrite Hh, He, Ht.
  destruct (host_error (request v)); [reflexivity |].
  destruct (filter _ (tenants v)) as [|t [|t' ts]]; reflexivity.
Qed.

(** The schema a previous request left on the connection has no influence
    on a run of the gate, for any resolver. *)
Theorem gate_forgets_arriving_schema settings g s w :
  BaseTenantMiddleware.process_request settings g (with_active_schema s w) =
  BaseTenantMiddleware.process_request settings g w.
Proof.
  assert (E : at_public settings (with_active_schema s w)
              = at_public settings w) by reflexivity.
  destruct (g (at_public settings w)) as [[[t|]|e] w1] eqn:G.
  - rewrite (process_request_resolved settings g w t w1 G).
    apply process_request_resolved. rewrite E. exact G.
  - rewrite (process_request_None settings g w w1 G).
    apply process_request_None. rewrite E. exact G.
  - rewrite (process_request_Raise settings g w e w1 G).
    apply process_request_Raise. rewrite E. exact G.
Qed.

(** With a resolver that only looks tenants up and returns rows of the
    table, a run of the gate that returns leaves the connection at the
    schema of a row of the table, attached to the request; a run that
    raises leaves the connection at the public schema, the request as it
    arrived and the cache uncleared.  The connection is never left at the
    schema it arrived with unless that is one of these. *)
Theorem gate_final_schema settings g w :
  lookup_only g ->
  returns_rows g ->
  match BaseTenantMiddleware.process_request settings g w with
  | (Return _, w') =>
      exists t,
        In t (tenants w)
        /\ active_schema w' = schema_name t
        /\ tenant (request w') = Some t
  | (Raise _, w') =>
      active_schema w' = get_public_schema_name settings
      /\ request w' = request w
      /\ cache_clears w' = cache_clears w
  end.
Proof.
  intros L R.
  destruct (L (at_public settings w)) as (Hr & Hs & _ & Hc & _).
  destruct (g (at_public settings w)) as [[[t|]|e] w1] eqn:G;
    cbn [snd] in Hr, Hs, Hc.
  - rewrite (process_request_resolved settings g w t w1 G).
    destruct (R _ _ _ G) as (t' & Ho & Hin). injection Ho as ->.
    exists t'. repeat split. exact Hin.
  - rewrite (process_request_None settings g w w1 G).
    repeat split; assumption.
  - rewrite (process_request_Raise settings g w e w1 G).
    repeat split; assumption.
Qed.

Lemma gate_final_schema_witness :
  match BaseTenantMiddleware.process_request example_settings
          hostname_resolver (example_world "unknown.example.com") with
  | (Return _, w') =>
      exists t,
        In t (tenants (example_world "unknown.example.com"))
        /\ active_schema w' = schema_name t
        /\ tenant (request w') = Some t
  | (Raise _, w') =>
      active_schema w' = get_public_schema_name example_settings
      /\ request w' = request (example_world "unknown.example.com")
      /\ cache_clears w' = cache_clears (example_world "unknown.example.com")
  end.
Proof.
  apply (gate_final_schema example_settings hostname_resolver
           (example_world "unknown.example.com")).
  - apply lookup_only_hostname_resolver.
  - apply returns_rows_get_tenant.
Defined.

(** With a resolver that only looks tenants up and decides by host and
    tenant table alone, running the gate again on the world a successful
    run left succeeds again, leaves the request and the connection as they
    are, and clears the content-type cache once more: the cache is cleared
    on every successful run, whether or not the tenant has changed. *)
Theorem gate_rerun settings g w w' :
  lookup_only g ->
  reads_host_and_table g ->
  BaseTenantMiddleware.process_request settings g w = (Return tt, w') ->
  exists w'',
    BaseTenantMiddleware.process_request settings g w' = (Return tt, w'')
    /\ request w'' = request w'
    /\ active_schema w'' = active_schema w'
    /\ cache_clears w'' = S (cache_clears w').
Proof.
  intros L D H.
  destruct (process_request_Return_inv _ _ _ _ H) as (t & w1 & G).
  rewrite (process_request_resolved _ _ _ _ _ G) in H. injection H as <-.
  destruct (L (at_public settings w)) as (Hr & _ & Ht & _).
  rewrite G in Hr, Ht. cbn [snd] in Hr, Ht.
  set (w' := mkWorld _ _ _ _ _).
  assert (F : fst (g (at_public settings w')) = Return (Some t)).
  { rewrite (D (at_public settings w') (at_public settings w)).
    - rewrite G. reflexivity.
    - cbn. rewrite Hr. reflexivity.
    - cbn. rewrite Hr. reflexivity.
    - cbn. exact Ht. }
  destruct (L (at_public settings w')) as (Hr2 & _ & _ & Hc2 & _).
  destruct (g (at_public settings w')) as [o w2] eqn:G2.
  cbn [fst] in F. subst o. cbn [snd] in Hr2, Hc2.
  eexists. split.
  - apply process_request_resolved. exact G2.
  - cbn. rewrite Hr2, Hc2. cbn.
    repeat split.
    destruct (PUBLIC_SCHEMA_URLCONF settings) as [u|]; [| reflexivity].
    destruct (String.eqb (schema_name t) (get_public_schema_name settings));
      reflexivity.
Qed.

Lemma gate_rerun_witness :
  exists w'',
    BaseTenantMiddleware.process_request example_settings hostname_resolver
      (snd (BaseTenantMiddleware.process_request example_settings
              hostname_resolver (example_world "tenant1.example.com")))
    = (Return tt, w'')
    /\ request w''
       = request
           (snd (BaseTenantMiddleware.process_request example_settings
                   hostname_resolver (example_world "tenant1.example.com")))
    /\ active_schema w'' = "tenant1"
    /\ cache_clears w'' = 2.
Proof.
  apply (gate_rerun example_settings hostname_resolver
           (example_world "tenant1.example.com")).
  - apply lookup_only_hostname_resolver.
  - apply reads_host_and_table_get_tenant.
  - reflexivity.
Defined.

(** A middleware that does not override [get_tenant] fails every request
    with [NotImplementedError], after the connection was moved to the
    public schema and with nothing else changed. *)
Theorem gate_without_resolver settings w :
  BaseTenantMiddleware.process_request settings
    BaseTenantMiddleware.get_tenant w
  = (Raise (mkException NotImplementedError EmptyString),
     with_active_schema (get_public_schema_name settings) w).
Proof. apply process_request_Raise. reflexivity. Qed.

(** ** Further properties of host normalisation *)

Lemma lower_ascii_idem c : lower_ascii (lower_ascii c) = lower_ascii c.
Proof.
  destruct c as [b0 b1 b2 b3 b4 b5 b6 b7].
  destruct b0, b1, b2, b3, b4, b5, b6, b7; reflexivity.
Qed.

Lemma lower_ascii_colon c :
  Ascii.eqb (lower_ascii c) ":" = Ascii.eqb c ":".
Proof.
  destruct c as [b0 b1 b2 b3 b4 b5 b6 b7].
  destruct b0, b1, b2, b3, b4, b5, b6, b7; reflexivity.
Qed.

Lemma lower_idem s : lower (lower s) = lower s.
Proof.
  induction s as [|c s IH]; cbn; [reflexivity |].
  rewrite lower_ascii_idem, IH. reflexivity.
Qed.

Lemma mem_colon_lower_eq s : mem ":" (lower s) = mem ":" s.
Proof.
  induction s as [|c s IH]; cbn; [reflexivity |].
  rewrite lower_ascii_colon, IH. reflexivity.
Qed.

Lemma mem_hd_split sep s : mem sep (hd EmptyString (split sep s)) = false.
Proof.
  induction s as [|c s IH]; [reflexivity |].
  rewrite hd_split_cons. destruct (Ascii.eqb c sep) eqn:E; [reflexivity |].
  cbn. rewrite E, IH. reflexivity.
Qed.

Lemma mem_drop c n : forall s, mem c s = false -> mem c (drop n s) = false.
Proof.
  induction n as [|n IH]; intros [|a s] H; cbn; try assumption;
    try reflexivity.
  apply IH. cbn in H. apply orb_false_iff in H as [_ H]. exact H.
Qed.

Lemma mem_remove_www c s : mem c s = false -> mem c (remove_www s) = false.
Proof.
  intros H. unfold remove_www.
  destruct (startswith s "www."); [apply mem_drop |]; exact H.
Qed.

Lemma hostname_of_normal w :
  mem ":" (hostname_of w) = false /\ lower (hostname_of w) = hostname_of w.
Proof.
  unfold hostname_of. split.
  - rewrite mem_colon_lower_eq. apply mem_remove_www, mem_hd_split.
  - apply lower_idem.
Qed.

Lemma split_lower s :
  hd EmptyString (split ":" (lower s)) =
  lower (hd EmptyString (split ":" s)).
Proof.
  induction s as [|c s IH]; [reflexivity |].
  cbn [lower]. rewrite !hd_split_cons, lower_ascii_colon.
  destruct (Ascii.eqb c ":"); [reflexivity |].
  cbn [lower]. rewrite IH. reflexivity.
Qed.

Lemma prefix_hd_split sep p : forall s,
  mem sep p = false ->
  String.prefix p (hd EmptyString (split sep s)) = String.prefix p s.
Proof.
  induction p as [|a p IH]; intros s H.
  - destruct s as [|c s]; [reflexivity |].
    rewrite hd_split_cons. destruct (Ascii.eqb c sep); reflexivity.
  - cbn in H. apply orb_false_iff in H as [Ha Hp].
    destruct s as [|c s]; [reflexivity |].
    rewrite hd_split_cons.
    destruct (Ascii.eqb_spec c sep) as [-> | Hne].
    + cbn. destruct (ascii_dec a sep) as [-> | _]; [| reflexivity].
      rewrite Ascii.eqb_refl in Ha. discriminate.
    + cbn. destruct (ascii_dec a c); [apply IH; exact Hp | reflexivity].
Qed.

Lemma lower_drop n : forall s, lower (drop n s) = drop n (lower s).
Proof.
  induction n as [|n IH]; intros [|c s]; cbn; try reflexivity. apply IH.
Qed.

Lemma hd_split_after_colon h p :
  hd EmptyString (split ":" (h ++ String ":" p)) =
  hd EmptyString (split ":" h).
Proof.
  induction h as [|c h IH].
  - cbn [append]. rewrite hd_split_cons. reflexivity.
  - cbn [append]. rewrite !hd_split_cons, IH. reflexivity.
Qed.

(** [hostname_from_request] changes nothing.  On a host
    [request.get_host()] accepts it returns a name in normal form, with no
    colon and no upper-case letter; on a host it rejects it raises Django's
    [DisallowedHost]. *)
Theorem hostname_from_request_normal w :
  match host_error (request w) with
  | None =>
      exists r,
        TenantMiddleware.hostname_from_request w = (Return r, w)
        /\ mem ":" r = false
        /\ lower r = r
  | Some m =>
      TenantMiddleware.hostname_from_request w =
        (Raise (mkException DisallowedHost m), w)
  end.
Proof.
  destruct (host_error (request w)) as [m|] eqn:E.
  - apply hostname_from_request_rejected. exact E.
  - exists (hostname_of w).
    split; [apply hostname_from_request_eq; exact E | apply hostname_of_normal].
Qed.

(** Whatever follows the first colon of the host plays no part: two
    requests on which Django's verdict is the same, one for a host and one
    for the same host followed by a colon and any text, are looked up under
    the same name and, over the same tenant table, resolved alike. *)
Theorem port_is_ignored c w v p :
  host (request v) = host (request w) ++ String ":" p ->
  host_error (request v) = host_error (request w) ->
  tenants v = tenants w ->
  fst (TenantMiddleware.hostname_from_request v)
  = fst (TenantMiddleware.hostname_from_request w)
  /\ fst (TenantMiddleware.get_tenant c v)
     = fst (TenantMiddleware.get_tenant c w).
Proof.
  intros Hh He Ht.
  assert (E : hostname_of v = hostname_of w).
  { unfold hostname_of. rewrite Hh, hd_split_after_colon. reflexivity. }
  split.
  - destruct (host_error (request w)) as [m|] eqn:V.
    + rewrite (hostname_from_request_rejected v m He).
      rewrite (hostname_from_request_rejected w m V). reflexivity.
    + rewrite (hostname_from_request_eq v He).
      rewrite (hostname_from_request_eq w V). cbn [fst].
      rewrite E. reflexivity.
  - rewrite !get_tenant_outcome.
    unfold rows, no_tenant_message. rewrite E, He, Ht.
    destruct (host_error (request w)); reflexivity.
Qed.

Lemma port_is_ignored_witness :
  fst (TenantMiddleware.hostname_from_request
         (example_world "tenant1.example.com:8000"))
  = fst (TenantMiddleware.hostname_from_request
           (example_world "tenant1.example.com"))
  /\ fst (TenantMiddleware.get_tenant Http404
            (example_world "tenant1.example.com:8000"))
     = fst (TenantMiddleware.get_tenant Http404
              (example_world "tenant1.example.com")).
Proof.
  apply (port_is_ignored Http404 (example_world "tenant1.example.com")
           (example_world "tenant1.example.com:8000") "8000");
    reflexivity.
Defined.

(** Two hosts that differ only in letter case and agree on whether they
    start with [www.] written in lower case are normalised to the same
    name, and [hostname_from_request] has the same outcome on them when
    Django's verdict on them is the same. *)
Theorem hostname_case_insensitive w v :
  lower (host (request w)) = lower (host (request v)) ->
  startswith (host (request w)) "www." = startswith (host (request v)) "www." ->
  hostname_of w = hostname_of v
  /\ (host_error (request w) = host_error (request v) ->
      fst (TenantMiddleware.hostname_from_request w)
      = fst (TenantMiddleware.hostname_from_request v)).
Proof.
  intros Hl Hs.
  assert (N : hostname_of w = hostname_of v).
  { unfold hostname_of, remove_www, startswith in *.
    rewrite !(prefix_hd_split ":" "www.") by reflexivity.
    rewrite <- Hs.
    assert (E : lower (hd EmptyString (split ":" (host (request w))))
                = lower (hd EmptyString (split ":" (host (request v)))))
      by (rewrite <- !split_lower, Hl; reflexivity).
    destruct (String.prefix "www." (host (request w))).
    - rewrite !lower_drop, E. reflexivity.
    - exact E. }
  split; [exact N |].
  intros He.
  destruct (host_error (request v)) as [m|] eqn:V.
  - rewrite (hostname_from_request_rejected w m He).
    rewrite (hostname_from_request_rejected v m V). reflexivity.
  - rewrite (hostname_from_request_eq w He), (hostname_from_request_eq v V).
    cbn [fst]. rewrite N. reflexivity.
Qed.

Lemma hostname_case_insensitive_witness :
  hostname_of (example_world "www.Tenant1.Example.COM:80")
  = hostname_of (example_world "www.tenant1.example.com:80")
  /\ fst (TenantMiddleware.hostname_from_request
            (example_world "www.Tenant1.Example.COM:80"))
     = fst (TenantMiddleware.hostname_from_request
              (example_world "www.tenant1.example.com:80")).
Proof.
  destruct (hostname_case_insensitive
              (example_world "www.Tenant1.Example.COM:80")
              (example_world "www.tenant1.example.com:80")
              eq_refl eq_refl) as [A B].
  split; [exact A | exact (B eq_refl)].
Defined.


(** A tenant whose stored [domain_url] contains a colon or an upper-case
    letter is never returned by the hostname lookup, for any request. *)
Theorem unnormalised_domain_unreachable c w t :
  mem ":" (domain_url t) = true \/ lower (domain_url t) <> domain_url t ->
  fst (TenantMiddleware.get_tenant c w) <> Return (Some t).
Proof.
  intros Hbad Hret.
  destruct (TenantMiddleware.get_tenant c w) as [o w'] eqn:G.
  cbn [fst] in Hret. subst o.
  destruct (hostname_lookup_sound_aux _ _ _ _ G) as (t' & Ho & _ & Hd & _).
  injection Ho as <-.
  destruct (hostname_of_normal w) as [Hc Hl].
  rewrite <- Hd in Hc, Hl.
  destruct Hbad as [Hbad | Hbad]; [congruence | contradiction].
Qed.

Lemma unnormalised_domain_unreachable_witness :
  fst (TenantMiddleware.get_tenant Http404
         (mkWorld (mkRequest "Acme.com" None None None) "public"
            [mkTenant "acme" "Acme.com"] 0 []))
  <> Return (Some (mkTenant "acme" "Acme.com")).
Proof.
  apply (unnormalised_domain_unreachable Http404
           (mkWorld (mkRequest "Acme.com" None None None) "public"
              [mkTenant "acme" "Acme.com"] 0 [])
           (mkTenant "acme" "Acme.com")).
  right. discriminate.
Defined.

(** A request through the gate with a hostname resolver costs exactly one
    tenant query, by the normalised hostname and under the public schema,
    when [request.get_host()] accepts the host, whether the tenant is
    found, missing or ambiguous, and no query at all when it rejects the
    host, whatever class is bound to [TENANT_NOT_FOUND_EXCEPTION]. *)
Theorem gate_single_query settings c w :
  queries
    (snd (BaseTenantMiddleware.process_request settings
            (TenantMiddleware.get_tenant c) w))
  = match host_error (request w) with
    | None =>
        mkQuery (get_public_schema_name settings)
          (by_domain_url (hostname_of w))
        :: queries w
    | Some _ => queries w
    end.
Proof.
  rewrite process_request_queries, get_tenant_outcome.
  change (host_error (request (at_public settings w)))
    with (host_error (request w)).
  destruct (host_error (request w)); reflexivity.
Qed.
